(** * ProTrade portfolio tracker: the ledger aggregator, the calendar projector
      and the form and delete handlers, embedded from the TypeScript sources.

    Source files: [src/types.ts], the date helpers and [App] (first unnamed
    part), [StrategySelector] and [TradeModal] (second unnamed part).

    Numbers are JavaScript numbers, that is IEEE 754 binary64 values: they are
    embedded as Rocq's primitive floats ([PrimFloat.float]), whose operations
    are the binary64 operations round-to-nearest-even.  Calendar arithmetic is
    on [Z], following the day-number functions of ECMAScript (Day, DayFromYear,
    MakeDay, WeekDay). *)

From Stdlib Require Import ZArith List String Ascii Bool Lia Floats.
From Stdlib Require Import Permutation Sorted.
Import ListNotations.

Local Open Scope Z_scope.

(* ================================================================== *)
(** * JavaScript numbers *)

Module JsNumber.

(** [number]: a binary64 value. *)
Definition number := float.

(** [a > b] and [a < b] on numbers (false when an operand is NaN). *)
Definition gt (a b : number) : bool := PrimFloat.ltb b a.
Definition lt (a b : number) : bool := PrimFloat.ltb a b.

(** [a === b] on numbers: numeric equality, [+0 === -0], [NaN !== NaN]. *)
Definition strictEq (a b : number) : bool := PrimFloat.eqb a b.
Definition strictNe (a b : number) : bool := negb (PrimFloat.eqb a b).

(** The globals [isNaN] and [isFinite] on a number. *)
Definition isNaN (v : number) : bool := PrimFloat.is_nan v.
Definition isFinite (v : number) : bool := PrimFloat.is_finite v.

(** [Math.abs]. *)
Definition Math_abs (v : number) : number := PrimFloat.abs v.

(** The global [Infinity]. *)
Definition Infinity : number := PrimFloat.infinity.

End JsNumber.
Import JsNumber.

(* ================================================================== *)
(** * JavaScript dates

    The day-number functions of ECMAScript (section "Time Values and Time
    Range" and the abstract operations MakeDay and MakeFullYear), on [Z].
    Division and remainder are [Z.div] and [Z.modulo], which are the floor and
    the non-negative modulo the standard uses. *)

Module JsDate.

Definition msPerDay : Z := 86400000.

Definition DaysInYear (y : Z) : Z :=
  if negb (y mod 4 =? 0) then 365
  else if negb (y mod 100 =? 0) then 366
  else if negb (y mod 400 =? 0) then 365
  else 366.

(** Day number of the first day of year [y] (day 0 is 1 January 1970). *)
Definition DayFromYear (y : Z) : Z :=
  365 * (y - 1970) + (y - 1969) / 4 - (y - 1901) / 100 + (y - 1601) / 400.

Definition InLeapYear (y : Z) : Z := if DaysInYear y =? 366 then 1 else 0.

(** YearFromTime: the standard defines it as the largest [y] with
    [DayFromYear y <= n]; this is the usual 400/100/4/1-year descent from
    1 January 1601, and [YearFromDay_spec] below proves that it is that
    year. *)
Definition YearFromDay (n : Z) : Z :=
  let d := n - DayFromYear 1601 in
  let q400 := d / 146097 in
  let r400 := d mod 146097 in
  let q100 := Z.min (r400 / 36524) 3 in
  let r100 := r400 - q100 * 36524 in
  let q4 := r100 / 1461 in
  let r4 := r100 mod 1461 in
  let q1 := Z.min (r4 / 365) 3 in
  1601 + 400 * q400 + 100 * q100 + 4 * q4 + q1.

Definition DayWithinYear (n : Z) : Z := n - DayFromYear (YearFromDay n).

(** First day-within-year of month [m] (0 = January), from the table of
    MonthFromTime. *)
Definition monthStart (m leap : Z) : Z :=
  match m with
  | 0 => 0 | 1 => 31 | 2 => 59 + leap | 3 => 90 + leap | 4 => 120 + leap
  | 5 => 151 + leap | 6 => 181 + leap | 7 => 212 + leap | 8 => 243 + leap
  | 9 => 273 + leap | 10 => 304 + leap | _ => 334 + leap
  end.

Definition monthOfDayWithinYear (d leap : Z) : Z :=
  if d <? 31 then 0
  else if d <? 59 + leap then 1
  else if d <? 90 + leap then 2
  else if d <? 120 + leap then 3
  else if d <? 151 + leap then 4
  else if d <? 181 + leap then 5
  else if d <? 212 + leap then 6
  else if d <? 243 + leap then 7
  else if d <? 273 + leap then 8
  else if d <? 304 + leap then 9
  else if d <? 334 + leap then 10
  else 11.

Definition MonthFromDay (n : Z) : Z :=
  monthOfDayWithinYear (DayWithinYear n) (InLeapYear (YearFromDay n)).

Definition DateFromDay (n : Z) : Z :=
  DayWithinYear n - monthStart (MonthFromDay n) (InLeapYear (YearFromDay n)) + 1.

(** WeekDay: 0 = Sunday ... 6 = Saturday; day 0 was a Thursday. *)
Definition WeekDay (n : Z) : Z := (n + 4) mod 7.

(** MakeDay(year, month, date): months and days outside their range carry
    over ([month = 12] is January of the next year, [date = 0] the last day
    of the previous month). *)
Definition MakeDay (year month date : Z) : Z :=
  let ym := year + month / 12 in
  let mn := month mod 12 in
  DayFromYear ym + monthStart mn (InLeapYear ym) + date - 1.

(** MakeFullYear, applied by the [Date(year, month, date)] constructor: a
    year argument from 0 to 99 means 1900 + year. *)
Definition MakeFullYear (y : Z) : Z :=
  if (0 <=? y) && (y <=? 99) then 1900 + y else y.

(** A [Date], as far as this program reads it: the day number of its local
    time, Day(LocalTime(t)).  The time of day and the zone offset are not
    represented, and time values are not clipped to the range of [Date]
    (years -271821 to 275760). *)
Record Date : Set := mkDate { localDay : Z }.

(** [new Date(year, month, date)]: local midnight of that day. *)
Definition new_Date (year month date : Z) : Date :=
  mkDate (MakeDay (MakeFullYear year) month date).

Definition getFullYear (d : Date) : Z := YearFromDay (localDay d).
Definition getMonth (d : Date) : Z := MonthFromDay (localDay d).
Definition getDate (d : Date) : Z := DateFromDay (localDay d).
Definition getDay (d : Date) : Z := WeekDay (localDay d).

(** Decimal digits, zero-padded to [w] places. *)
Definition digit (n : Z) : ascii := ascii_of_nat (48 + Z.to_nat (n mod 10)).

Fixpoint padDigits (w : nat) (n : Z) : string :=
  match w with
  | O => EmptyString
  | S w' => (padDigits w' (n / 10) ++ String (digit n) EmptyString)%string
  end.

(** The date part of [toISOString]: four-digit years from 0 to 9999, a sign
    and six digits otherwise. *)
Definition isoYear (y : Z) : string :=
  if (0 <=? y) && (y <=? 9999) then padDigits 4 y
  else ((if (y <? 0)%Z then "-" else "+") ++ padDigits 6 (Z.abs y))%string.

(** The key of the civil date year [y], month [m] (1 = January), day [d]. *)
Definition isoDate (y m d : Z) : string :=
  (isoYear y ++ "-" ++ padDigits 2 m ++ "-" ++ padDigits 2 d)%string.

(** [Date.parse] on the date-only forms [YYYY-MM-DD] and [+-YYYYYY-MM-DD]
    that [toISOString] produces: UTC midnight of that day in milliseconds.
    [None] is NaN.  Any other string is read as NaN here (engines differ on
    strings outside the standard format). *)
Definition digitVal (c : ascii) : option Z :=
  let n := nat_of_ascii c in
  if (48 <=? n)%nat && (n <=? 57)%nat then Some (Z.of_nat (n - 48)) else None.

Fixpoint digitsVal (acc : Z) (cs : list ascii) : option Z :=
  match cs with
  | [] => Some acc
  | c :: cs' =>
      match digitVal c with
      | Some v => digitsVal (10 * acc + v) cs'
      | None => None
      end
  end.

Definition monthLength (m leap : Z) : Z :=
  match m with
  | 1 => 28 + leap
  | 3 | 5 | 8 | 10 => 30
  | _ => 31
  end.

Definition civilTime (oy om od : option Z) : option Z :=
  match oy, om, od with
  | Some y, Some m, Some d =>
      if (1 <=? m) && (m <=? 12) && (1 <=? d)
         && (d <=? monthLength (m - 1) (InLeapYear y))
      then Some (MakeDay y (m - 1) d * msPerDay) else None
  | _, _, _ => None
  end.

Definition Date_parse (s : string) : option Z :=
  let dash := "-"%char in
  match list_ascii_of_string s with
  | [y1; y2; y3; y4; h1; m1; m2; h2; d1; d2] =>
      if Ascii.eqb h1 dash && Ascii.eqb h2 dash then
        civilTime (digitsVal 0 [y1; y2; y3; y4]) (digitsVal 0 [m1; m2])
                  (digitsVal 0 [d1; d2])
      else None
  | [sg; y1; y2; y3; y4; y5; y6; h1; m1; m2; h2; d1; d2] =>
      if Ascii.eqb h1 dash && Ascii.eqb h2 dash then
        let y := digitsVal 0 [y1; y2; y3; y4; y5; y6] in
        if Ascii.eqb sg "+"%char then
          civilTime y (digitsVal 0 [m1; m2]) (digitsVal 0 [d1; d2])
        else if Ascii.eqb sg dash then
          match y with
          | Some 0 => None          (* "-000000" is not a year *)
          | _ => civilTime (option_map Z.opp y) (digitsVal 0 [m1; m2])
                           (digitsVal 0 [d1; d2])
          end
        else None
      else None
  | _ => None
  end.

End JsDate.
Import JsDate.

(* ================================================================== *)
(** * [types.ts] *)

Inductive StrategyType : Set := DAY_TRADE | SWING | OPTIONS.

(** [ViewType = 'OVERVIEW' | StrategyType]. *)
Inductive ViewType : Set :=
| OVERVIEW
| View (s : StrategyType).

Inductive TransactionType : Set := TRADE | DEPOSIT | WITHDRAWAL.

Record Transaction : Set := mkTransaction {
  id : string;
  date : string;                 (* ISO YYYY-MM-DD *)
  type : TransactionType;
  strategy : StrategyType;
  amount : number;
  note : option string           (* [note?: string] *)
}.

Definition StrategyType_eqb (a b : StrategyType) : bool :=
  match a, b with
  | DAY_TRADE, DAY_TRADE | SWING, SWING | OPTIONS, OPTIONS => true
  | _, _ => false
  end.

Definition TransactionType_eqb (a b : TransactionType) : bool :=
  match a, b with
  | TRADE, TRADE | DEPOSIT, DEPOSIT | WITHDRAWAL, WITHDRAWAL => true
  | _, _ => false
  end.

(** [t.strategy === currentView] for a view other than ['OVERVIEW']. *)
Definition strategyIsView (v : ViewType) (t : Transaction) : bool :=
  match v with
  | OVERVIEW => false
  | View s => StrategyType_eqb (strategy t) s
  end.

(** [DayStats]. *)
Module DayStats.
Record t : Set := mk {
  date : string;
  pl : number;
  transactions : list Transaction;
  isProfit : bool;
  isLoss : bool;
  hasTrades : bool
}.
End DayStats.

(* ================================================================== *)
(** * [utils/dateHelpers] *)

(** [new Date(date.getFullYear(), date.getMonth() + 1, 0).getDate()]. *)
Definition getDaysInMonth (d : Date) : Z :=
  getDate (new_Date (getFullYear d) (getMonth d + 1) 0).

(** [new Date(date.getFullYear(), date.getMonth(), 1).getDay()]. *)
Definition getFirstDayOfMonth (d : Date) : Z :=
  getDay (new_Date (getFullYear d) (getMonth d) 1).

(** [formatDateISO]: the instant is moved by the zone offset, so that the UTC
    fields [toISOString] prints are the local fields of [d]; the result is
    the text before the ['T']. *)
Definition formatDateISO (d : Date) : string :=
  isoDate (getFullYear d) (getMonth d + 1) (getDate d).

(** [Intl.NumberFormat]: the options this program passes, and the formatter
    itself, which belongs to the platform and is a parameter of
    [formatPercentage]. *)
Inductive NumberStyle : Set := style_currency | style_percent.

Record NumberFormatOptions : Set := mkOptions {
  style : NumberStyle;
  minimumFractionDigits : Z;
  maximumFractionDigits : Z
}.

Section Formatting.

(** [new Intl.NumberFormat('en-US', options).format(x)]. *)
Variable NumberFormat_en_US : NumberFormatOptions -> number -> string.

Definition formatPercentage (value : number) : string :=
  if negb (isFinite value) || isNaN value then "0.00%"%string
  else NumberFormat_en_US (mkOptions style_percent 2 2) (value / 100)%float.

End Formatting.

(** One slot of the calendar grid, [{ day: number | null; dateStr: string | null }]. *)
Record CalendarDay : Set := mkCalendarDay {
  day : option Z;
  dateStr : option string
}.

(** [for (let i = lo; i < hi; i++) body]: the loop state is threaded through
    the iterations. *)
Fixpoint iterate {St : Type} (n : nat) (i : Z) (body : Z -> St -> St) (s : St) : St :=
  match n with
  | O => s
  | S n' => iterate n' (i + 1) body (body i s)
  end.

Definition for_lt {St : Type} (lo hi : Z) (body : Z -> St -> St) (s : St) : St :=
  iterate (Z.to_nat (hi - lo)) lo body s.

(** [for (let i = lo; i <= hi; i++) body]. *)
Definition for_le {St : Type} (lo hi : Z) (body : Z -> St -> St) (s : St) : St :=
  for_lt lo (hi + 1) body s.

(** [days.push(x)]. *)
Definition push {A : Type} (x : A) (days : list A) : list A := days ++ [x].

Definition generateCalendarDays (currentDate : Date) : list CalendarDay :=
  let year := getFullYear currentDate in
  let month := getMonth currentDate in
  let daysInMonth := getDaysInMonth currentDate in
  let firstDayOfWeek := getFirstDayOfMonth currentDate in
  let days := [] in
  let days :=
    for_lt 0 firstDayOfWeek (fun _ => push (mkCalendarDay None None)) days in
  let days :=
    for_le 1 daysInMonth
      (fun i =>
         let d := new_Date year month i in
         push (mkCalendarDay (Some i) (Some (formatDateISO d))))
      days in
  let totalSlots := Z.of_nat (List.length days) in
  let remainingSlots := 42 - totalSlots in
  if remainingSlots <? 7 then
    for_lt 0 remainingSlots (fun _ => push (mkCalendarDay None None)) days
  else days.

(* ================================================================== *)
(** * [App]: dashboard metrics ([stats]) *)

(** The seven local variables of the [stats] memo, mutated by the [forEach]
    loop.  The counters are JavaScript numbers too ([tradeCount++]). *)
Module Acc.
Record t : Set := mk {
  investedCapital : number;
  netProfit : number;
  tradeCount : number;
  grossProfit : number;
  grossLoss : number;
  winCount : number;
  lossCount : number
}.

(** All seven start at [0]. *)
Definition init : t := mk 0%float 0%float 0%float 0%float 0%float 0%float 0%float.
End Acc.

(** The object the [stats] memo returns. *)
Module Stats.
Record t : Set := mk {
  investedCapital : number;
  netProfit : number;
  portfolioValue : number;
  roi : number;
  winRate : number;
  tradeCount : number;
  avgWin : number;
  avgLoss : number;
  profitFactor : number
}.
End Stats.

(** One iteration of [filteredTransactions.forEach(t => ...)]. *)
Definition step (a : Acc.t) (t : Transaction) : Acc.t :=
  match type t with
  | DEPOSIT =>
      Acc.mk (Acc.investedCapital a + amount t)%float (Acc.netProfit a)
             (Acc.tradeCount a) (Acc.grossProfit a) (Acc.grossLoss a)
             (Acc.winCount a) (Acc.lossCount a)
  | WITHDRAWAL =>
      Acc.mk (Acc.investedCapital a - amount t)%float (Acc.netProfit a)
             (Acc.tradeCount a) (Acc.grossProfit a) (Acc.grossLoss a)
             (Acc.winCount a) (Acc.lossCount a)
  | TRADE =>
      let netProfit := (Acc.netProfit a + amount t)%float in
      let tradeCount := (Acc.tradeCount a + 1)%float in
      if gt (amount t) 0%float then
        Acc.mk (Acc.investedCapital a) netProfit tradeCount
               (Acc.grossProfit a + amount t)%float (Acc.grossLoss a)
               (Acc.winCount a + 1)%float (Acc.lossCount a)
      else if lt (amount t) 0%float then
        Acc.mk (Acc.investedCapital a) netProfit tradeCount
               (Acc.grossProfit a) (Acc.grossLoss a + Math_abs (amount t))%float
               (Acc.winCount a) (Acc.lossCount a + 1)%float
      else
        Acc.mk (Acc.investedCapital a) netProfit tradeCount
               (Acc.grossProfit a) (Acc.grossLoss a)
               (Acc.winCount a) (Acc.lossCount a)
  end.

(** The whole [forEach] loop, from the initial values. *)
Definition accumulate (txs : list Transaction) : Acc.t :=
  fold_left step txs Acc.init.

(** The derived values computed after the loop. *)
Definition derive (a : Acc.t) : Stats.t :=
  let investedCapital := Acc.investedCapital a in
  let netProfit := Acc.netProfit a in
  let tradeCount := Acc.tradeCount a in
  let grossProfit := Acc.grossProfit a in
  let grossLoss := Acc.grossLoss a in
  let winCount := Acc.winCount a in
  let lossCount := Acc.lossCount a in
  let portfolioValue := (investedCapital + netProfit)%float in
  let roi :=
    if strictNe investedCapital 0%float
    then ((netProfit / investedCapital) * 100)%float else 0%float in
  let winRate :=
    if gt tradeCount 0%float then ((winCount / tradeCount) * 100)%float else 0%float in
  let avgWin := if gt winCount 0%float then (grossProfit / winCount)%float else 0%float in
  let avgLoss := if gt lossCount 0%float then (grossLoss / lossCount)%float else 0%float in
  let profitFactor :=
    if gt grossLoss 0%float then (grossProfit / grossLoss)%float
    else if gt grossProfit 0%float then Infinity else 0%float in
  Stats.mk investedCapital netProfit portfolioValue roi winRate tradeCount
           avgWin avgLoss profitFactor.

(** The body of the [stats] memo as a function of the list it iterates: the
    aggregator. *)
Definition aggregate (txs : list Transaction) : Stats.t :=
  derive (accumulate txs).

(* ================================================================== *)
(** * [App]: the filtered view, the per-day lookup, save and delete *)

(** [Array.prototype.sort(compareFn)] on a copy: a stable sort.  [compareFn]
    returns a number, [None] standing for NaN, which [sort] reads as [+0].
    An element moves behind another one only when [compareFn] is positive on
    the pair.  (For a comparator that is not consistent the order is left to
    the engine; this is the insertion order.) *)
Section Sort.
Context {A : Type}.
Variable compareFn : A -> A -> option Z.

Definition comesAfter (a b : A) : bool :=
  match compareFn a b with
  | Some v => 0 <? v
  | None => false
  end.

Fixpoint insertSorted (x : A) (l : list A) : list A :=
  match l with
  | [] => [x]
  | y :: l' => if comesAfter x y then y :: insertSorted x l' else x :: y :: l'
  end.

Definition Array_sort (l : list A) : list A := fold_right insertSorted [] l.
End Sort.

(** [(a, b) => new Date(b.date).getTime() - new Date(a.date).getTime()]. *)
Definition byDateDescending (a b : Transaction) : option Z :=
  match Date_parse (date b), Date_parse (date a) with
  | Some tb, Some ta => Some (tb - ta)
  | _, _ => None
  end.

(** The [filteredTransactions] memo. *)
Definition filteredTransactions
    (transactions : list Transaction) (currentView : ViewType) : list Transaction :=
  let txs :=
    match currentView with
    | OVERVIEW => transactions
    | View _ => filter (strategyIsView currentView) transactions
    end in
  Array_sort byDateDescending txs.


Definition isTrade (t : Transaction) : bool := TransactionType_eqb (type t) TRADE.

(** [getDayStats]; its first argument is the list it closes over (in [App],
    the [filteredTransactions] memo). *)
Definition getDayStats (filteredTransactions : list Transaction) (dateStr : string)
    : DayStats.t :=
  let dayTx := filter (fun t => String.eqb (date t) dateStr) filteredTransactions in
  let pl :=
    fold_left (fun sum t => (sum + amount t)%float) (filter isTrade dayTx) 0%float in
  DayStats.mk dateStr pl dayTx (gt pl 0%float) (lt pl 0%float) (existsb isTrade dayTx).

(** [handlePrevMonth] and [handleNextMonth]: the new value of [currentDate]. *)
Definition handlePrevMonth (currentDate : Date) : Date :=
  new_Date (getFullYear currentDate) (getMonth currentDate - 1) 1.

Definition handleNextMonth (currentDate : Date) : Date :=
  new_Date (getFullYear currentDate) (getMonth currentDate + 1) 1.

(** The state update of [window.deleteTransaction(id)]:
    [prev.filter(t => String(t.id) !== safeId)]. *)
Definition deleteTransaction (safeId : string) (prev : list Transaction)
    : list Transaction :=
  filter (fun t => negb (String.eqb (id t) safeId)) prev.

(** [Omit<Transaction, 'id'>], what the modal hands to [onSave]. *)
Module TxData.
Record t : Set := mk {
  date : string;
  type : TransactionType;
  strategy : StrategyType;
  amount : number;
  note : string
}.
End TxData.

(** The state update of [handleSaveTransaction]; [newId] is the value
    [generateId()] returned. *)
Definition handleSaveTransaction (newId : string) (txData : TxData.t)
    (prev : list Transaction) : list Transaction :=
  prev ++ [mkTransaction newId (TxData.date txData) (TxData.type txData)
             (TxData.strategy txData) (TxData.amount txData)
             (Some (TxData.note txData))].

(* ================================================================== *)
(** * [TradeModal]: the form *)

(** The form state of the modal. *)
Module Form.
Record t : Set := mk {
  type : TransactionType;
  strategy : StrategyType;
  amount : string;
  note : string
}.
End Form.

(** The amount field is [<input type="number" step="0.01" value={amount}
    onChange={(e) => setAmount(e.target.value)}>].  The [value] of a number
    input is sanitised (HTML, "value sanitization algorithm" of the Number
    state): text that is not a valid floating-point number reads as the empty
    string.  A valid floating-point number is an optional [-], then digits,
    or [.] and digits, or both, then optionally [e] or [E], an optional sign
    and digits. *)
Definition isDigit (c : ascii) : bool :=
  let n := nat_of_ascii c in (48 <=? n)%nat && (n <=? 57)%nat.

Fixpoint skipDigits (cs : list ascii) : nat * list ascii :=
  match cs with
  | c :: cs' =>
      if isDigit c then let (n, r) := skipDigits cs' in (S n, r) else (O, cs)
  | [] => (O, [])
  end.

Definition validExponent (cs : list ascii) : bool :=
  match cs with
  | [] => true
  | c :: cs' =>
      if Ascii.eqb c "e"%char || Ascii.eqb c "E"%char then
        let ds :=
          match cs' with
          | sg :: ds' =>
              if Ascii.eqb sg "-"%char || Ascii.eqb sg "+"%char then ds' else cs'
          | [] => cs'
          end in
        match skipDigits ds with
        | (S _, []) => true
        | _ => false
        end
      else false
  end.

Definition validFloatingPointNumber (s : string) : bool :=
  let cs := list_ascii_of_string s in
  let cs :=
    match cs with
    | c :: cs' => if Ascii.eqb c "-"%char then cs' else cs
    | [] => cs
    end in
  let (nInt, rest) := skipDigits cs in
  match rest with
  | c :: rest' =>
      if Ascii.eqb c "."%char then
        match skipDigits rest' with
        | (S _, rest'') => validExponent rest''
        | (O, _) => false
        end
      else (0 <? nInt)%nat && validExponent rest
  | [] => (0 <? nInt)%nat
  end.

(** [e.target.value] of the amount field holding the text [typed]. *)
Definition numberInputValue (typed : string) : string :=
  if validFloatingPointNumber typed then typed else EmptyString.

(** [onChange] of the amount field: [setAmount(e.target.value)]. *)
Definition amountOnChange (typed : string) (f : Form.t) : Form.t :=
  Form.mk (Form.type f) (Form.strategy f) (numberInputValue typed) (Form.note f).

Section TradeModal.

(** The global [parseFloat]. *)
Variable parseFloat : string -> number.

(** [handleSubmit]: the new form state, and the argument of [onSave] when
    it is called ([None] when the handler returns before saving). *)
Definition handleSubmit (selectedDate : string) (f : Form.t)
    : Form.t * option TxData.t :=
  match Form.amount f with
  | EmptyString => (f, None)                       (* [if (!amount) return] *)
  | _ =>
      (Form.mk (Form.type f) (Form.strategy f) EmptyString EmptyString,
       Some (TxData.mk selectedDate (Form.type f) (Form.strategy f)
               (parseFloat (Form.amount f)) (Form.note f)))
  end.

(** Submitting the form inside [App]: [onSave] is [handleSaveTransaction].
    The result is the new form state and the new transaction list. *)
Definition submitForm (newId selectedDate : string) (f : Form.t)
    (transactions : list Transaction) : Form.t * list Transaction :=
  match handleSubmit selectedDate f with
  | (f', Some txData) => (f', handleSaveTransaction newId txData transactions)
  | (f', None) => (f', transactions)
  end.

End TradeModal.

(* ================================================================== *)
(** * Notions used to state the properties *)

(** Neither NaN nor below zero: a zero, a positive number or [+Infinity]. *)
Definition SFnonneg (x : spec_float) : bool :=
  match x with
  | S754_zero _ => true
  | S754_infinity s | S754_finite s _ _ => negb s
  | S754_nan => false
  end.

(** [nonneg x]: [x] is a zero, a positive number or [Infinity]. *)
Definition nonneg (x : number) : bool := SFnonneg (Prim2SF x).

(** The number of days of month [m] (0 = January) of year [y]. *)
Definition daysInMonthOf (y m : Z) : Z := monthLength m (InLeapYear y).

(** The [n] consecutive integers from [i] on. *)
Fixpoint daysFrom (i : Z) (n : nat) : list Z :=
  match n with
  | O => []
  | S n' => i :: daysFrom (i + 1) n'
  end.

(** The blank slot and the slot of day [i] of month [m] of year [y]. *)
Definition blankSlot : CalendarDay := mkCalendarDay None None.

Definition daySlot (y m i : Z) : CalendarDay :=
  mkCalendarDay (Some i) (Some (isoDate y (m + 1) i)).

(** The grid of month [m] (0 = January) of year [y], as section 4.2 of the
    specification describes it: as many leading blanks as the weekday index
    of day 1, one slot per day with its key, and [42 - total] trailing blanks
    when that is fewer than 7. *)
Definition calendarGrid (y m : Z) : list CalendarDay :=
  let leadingBlanks := WeekDay (MakeDay y m 1) in
  let total := leadingBlanks + daysInMonthOf y m in
  repeat blankSlot (Z.to_nat leadingBlanks)
  ++ map (daySlot y m) (daysFrom 1 (Z.to_nat (daysInMonthOf y m)))
  ++ (if 42 - total <? 7 then repeat blankSlot (Z.to_nat (42 - total)) else []).

(** A transaction of type [TRADE] with the given amount, used in the
    examples below. *)
Definition trade (i d : string) (s : StrategyType) (a : number) : Transaction :=
  mkTransaction i d TRADE s a None.

Definition deposit (i d : string) (s : StrategyType) (a : number) : Transaction :=
  mkTransaction i d DEPOSIT s a None.

Definition withdrawal (i d : string) (s : StrategyType) (a : number) : Transaction :=
  mkTransaction i d WITHDRAWAL s a None.

Arguments trade (i d)%_string s a%_float.
Arguments deposit (i d)%_string s a%_float.
Arguments withdrawal (i d)%_string s a%_float.

(** A ledger in its stored order, oldest first: deposits of 0.1, 0.2 and
    0.3, winning trades of 0.7, 0.8 and 0.9 and losing trades of 0.1, 0.2 and
    0.3, all tagged [SWING], and two [DAY_TRADE] trades. *)
#[warnings="-inexact-float"]
Definition ledger : list Transaction :=
  [ deposit "d1" "2024-01-01" SWING 0.1;
    deposit "d2" "2024-01-02" SWING 0.2;
    trade "x1" "2024-01-02" DAY_TRADE 12.5;
    deposit "d3" "2024-01-03" SWING 0.3;
    trade "w1" "2024-01-04" SWING 0.7;
    trade "w2" "2024-01-05" SWING 0.8;
    trade "w3" "2024-01-06" SWING 0.9;
    trade "x2" "2024-01-06" DAY_TRADE (-4);
    trade "l1" "2024-01-07" SWING (-0.1);
    trade "l2" "2024-01-08" SWING (-0.2);
    trade "l3" "2024-01-09" SWING (-0.3) ].

(** The [SWING] transactions of [ledger], in the same order. *)
Definition swingLedger : list Transaction :=
  filter (strategyIsView (View SWING)) ledger.

(** The loop state assembled from two runs: the capital of [a], the trade
    figures of [b]. *)
Definition mergeAcc (a b : Acc.t) : Acc.t :=
  Acc.mk (Acc.investedCapital a) (Acc.netProfit b) (Acc.tradeCount b)
         (Acc.grossProfit b) (Acc.grossLoss b) (Acc.winCount b) (Acc.lossCount b).

Definition isTransfer (t : Transaction) : bool := negb (isTrade t).

(** The sum of the amounts of a list of transactions, taken from [0] in list
    order. *)
Definition sumAmounts (l : list Transaction) : number :=
  fold_left (fun sum t => (sum + amount t)%float) l 0%float.

(** The [TRADE] transactions of [l] dated [key]. *)
Definition tradesOn (key : string) (l : list Transaction) : list Transaction :=
  filter (fun t => isTrade t && String.eqb (date t) key) l.

(** The same transaction with another amount. *)
Definition withAmount (f : Transaction -> number) (t : Transaction) : Transaction :=
  mkTransaction (id t) (date t) (type t) (strategy t) (f t) (note t).

(** The reference date 1 December of the year 99, in local time. *)
Definition december_0099 : Date := mkDate (MakeDay 99 11 1).

(** [new Date(t.date).getTime()], and the order the view is meant to have:
    no later date after an earlier one. *)
Definition timeOf (t : Transaction) : option Z := Date_parse (date t).

Definition newestFirst (a b : Transaction) : Prop :=
  match timeOf a, timeOf b with
  | Some ta, Some tb => tb <= ta
  | _, _ => False
  end.

(* ################################################################## *)
(** * Properties *)

(* ================================================================== *)
(** ** Binary64 facts

    The sign of a rounded sum, read off the specification of the primitive
    operations ([SpecFloat]). *)

Section SpecFloatSigns.
Variables prec emax : Z.

Lemma shr_1_nonneg mrs : 0 <= shr_m mrs -> 0 <= shr_m (shr_1 mrs).
Proof.
  destruct mrs as [m r s]; cbn [shr_m]; intros H.
  destruct m as [| p | p]; [| destruct p | lia]; cbn; lia.
Qed.

Lemma iter_pos_shr_1_nonneg p : forall mrs,
  0 <= shr_m mrs -> 0 <= shr_m (iter_pos shr_1 p mrs).
Proof.
  induction p as [p IH | p IH |]; intros mrs H; cbn [iter_pos].
  - apply IH, IH, shr_1_nonneg, H.
  - apply IH, IH, H.
  - apply shr_1_nonneg, H.
Qed.

Lemma shr_fexp_nonneg m e l :
  0 <= m -> 0 <= shr_m (fst (shr_fexp prec emax m e l)).
Proof.
  intros H. unfold shr_fexp, shr.
  assert (H0 : 0 <= shr_m (shr_record_of_loc m l)).
  { destruct l as [| []]; exact H. }
  destruct (fexp prec emax (Zdigits2 m + e) - e); cbn [fst]; auto.
  apply iter_pos_shr_1_nonneg, H0.
Qed.

Lemma round_nearest_even_nonneg m l : 0 <= m -> 0 <= round_nearest_even m l.
Proof.
  intros H. unfold round_nearest_even.
  destruct l as [| []]; try destruct (Z.even m); lia.
Qed.

(** Rounding a non-negative mantissa with a positive sign never gives NaN
    or a negative value. *)
Lemma binary_round_aux_nonneg m e l :
  0 <= m -> SFnonneg (binary_round_aux prec emax false m e l) = true.
Proof.
  intros H. unfold binary_round_aux.
  pose proof (shr_fexp_nonneg m e l H) as H1.
  destruct (shr_fexp prec emax m e l) as [mrs' e']. cbn [fst] in H1.
  pose proof (shr_fexp_nonneg _ e' loc_Exact
                (round_nearest_even_nonneg _ (loc_of_shr_record mrs') H1)) as H2.
  destruct (shr_fexp prec emax
              (round_nearest_even (shr_m mrs') (loc_of_shr_record mrs')) e' loc_Exact)
    as [mrs'' e'']. cbn [fst] in H2.
  destruct (shr_m mrs'') as [| p | p]; [reflexivity | | lia].
  destruct (e'' <=? emax - prec); reflexivity.
Qed.

Lemma SFadd_nonneg x y :
  SFnonneg x = true -> SFnonneg y = true -> SFnonneg (SFadd prec emax x y) = true.
Proof.
  destruct x as [sx | sx | | sx mx ex]; destruct y as [sy | sy | | sy my ey];
    cbn [SFnonneg SFadd]; try discriminate; intros Hx Hy;
    try (apply negb_true_iff in Hx); try (apply negb_true_iff in Hy); subst; auto.
  - destruct sx, sy; reflexivity.
  - cbn [cond_Zopp]. unfold binary_normalize.
    cbn [Z.add]. unfold binary_round.
    destruct (shl_align _ _ _) as [mz ez].
    apply binary_round_aux_nonneg. lia.
Qed.
End SpecFloatSigns.

Lemma nonneg_add x y :
  nonneg x = true -> nonneg y = true -> nonneg (x + y)%float = true.
Proof. unfold nonneg. rewrite add_spec. apply SFadd_nonneg. Qed.

Lemma SFcompare_refl x : x <> S754_nan -> SFcompare x x = Some Eq.
Proof.
  destruct x as [s | s | | s m e]; cbn; try congruence; intros _.
  - destruct s; reflexivity.
  - destruct s; rewrite Z.compare_refl, Pos.compare_cont_refl; reflexivity.
Qed.

Lemma isNaN_spec x : isNaN x = true <-> Prim2SF x = S754_nan.
Proof.
  unfold isNaN, PrimFloat.is_nan. rewrite FloatAxioms.eqb_spec. unfold SFeqb.
  split.
  - destruct (Prim2SF x) as [s | s | | s m e] eqn:E; auto; intros H; exfalso.
    all: rewrite SFcompare_refl in H by discriminate; discriminate.
  - intros ->. reflexivity.
Qed.

(** [x > 0]: a positive number or [Infinity]. *)
Lemma gt_zero_nonneg x : gt x 0%float = true -> nonneg x = true.
Proof.
  unfold gt, nonneg. rewrite FloatAxioms.ltb_spec.
  change (Prim2SF 0%float) with (S754_zero false).
  destruct (Prim2SF x) as [s | s | | s m e]; cbn; try discriminate; auto;
    destruct s; cbn; auto; discriminate.
Qed.

(** [x < 0]: [Math.abs(x)] is a positive number or [Infinity]. *)
Lemma lt_zero_abs_nonneg x : lt x 0%float = true -> nonneg (Math_abs x) = true.
Proof.
  unfold lt, nonneg, Math_abs. rewrite FloatAxioms.ltb_spec, abs_spec.
  change (Prim2SF 0%float) with (S754_zero false).
  destruct (Prim2SF x) as [s | s | | s m e]; cbn; try discriminate; auto.
Qed.

(** A value that is neither NaN nor negative is positive or equal to zero. *)
Lemma nonneg_cases x :
  nonneg x = true -> gt x 0%float = true \/ strictEq x 0%float = true.
Proof.
  unfold gt, strictEq, nonneg.
  rewrite FloatAxioms.ltb_spec, FloatAxioms.eqb_spec.
  change (Prim2SF 0%float) with (S754_zero false).
  destruct (Prim2SF x) as [s | s | | s m e]; cbn; try discriminate; auto;
    destruct s; cbn; auto; discriminate.
Qed.

(** [x === 0] (either zero): neither [x > 0] nor [x < 0]. *)
Lemma strictEq_zero_not_gt_lt x :
  strictEq x 0%float = true -> gt x 0%float = false /\ lt x 0%float = false.
Proof.
  unfold gt, lt, strictEq.
  rewrite !FloatAxioms.ltb_spec, FloatAxioms.eqb_spec.
  change (Prim2SF 0%float) with (S754_zero false).
  destruct (Prim2SF x) as [s | s | | s m e]; cbn; try discriminate; auto;
    destruct s; cbn; auto; discriminate.
Qed.

(** The two zeros are the only values equal to zero. *)
Lemma strictEq_zero_inv x :
  strictEq x 0%float = true -> x = 0%float \/ x = (-0)%float.
Proof.
  unfold strictEq. rewrite FloatAxioms.eqb_spec.
  change (Prim2SF 0%float) with (S754_zero false).
  intros H. rewrite <- (SF2Prim_Prim2SF x).
  destruct (Prim2SF x) as [s | s | | s m e]; cbn in H; try discriminate;
    destruct s; try discriminate; [right | left]; reflexivity.
Qed.

(** The values [isFinite] rejects are NaN and the two infinities. *)
Lemma not_isFinite_inv v :
  isFinite v = false ->
  v = PrimFloat.nan \/ v = PrimFloat.infinity \/ v = PrimFloat.neg_infinity.
Proof.
  unfold isFinite, PrimFloat.is_finite. intros H.
  apply negb_false_iff, orb_true_iff in H. destruct H as [H | H].
  - apply isNaN_spec in H. left.
    rewrite <- (SF2Prim_Prim2SF v), H. reflexivity.
  - right. unfold PrimFloat.is_infinity in H.
    rewrite FloatAxioms.eqb_spec, abs_spec in H.
    change (Prim2SF PrimFloat.infinity) with (S754_infinity false) in H.
    rewrite <- (SF2Prim_Prim2SF v).
    destruct (Prim2SF v) as [s | s | | s m e]; cbn in H; try discriminate.
    destruct s; [right | left]; reflexivity.
Qed.

(* ================================================================== *)
(** ** The calendar functions of [JsDate] *)

Ltac zdiv := Z.div_mod_to_equations; lia.

Lemma DayFromYear_succ y : DayFromYear (y + 1) = DayFromYear y + DaysInYear y.
Proof.
  unfold DayFromYear, DaysInYear.
  destruct (Z.eqb_spec (y mod 4) 0); destruct (Z.eqb_spec (y mod 100) 0);
    destruct (Z.eqb_spec (y mod 400) 0); cbn [negb]; zdiv.
Qed.

(** The calendar repeats every 400 years, that is every 146097 days. *)
Lemma DayFromYear_shift y k : DayFromYear (y + 400 * k) = DayFromYear y + 146097 * k.
Proof. unfold DayFromYear. zdiv. Qed.

(** [YearFromDay n] is the year whose days contain day [n]. *)
Lemma YearFromDay_spec n :
  DayFromYear (YearFromDay n) <= n < DayFromYear (YearFromDay n + 1).
Proof.
  rewrite DayFromYear_succ.
  assert (Hb : DayFromYear 1601 = -134774) by reflexivity.
  unfold YearFromDay. rewrite Hb. cbv zeta.
  set (d := n - -134774).
  set (q := d / 146097). set (r := d mod 146097).
  assert (Hr : 0 <= r < 146097) by (subst r; apply Z.mod_pos_bound; lia).
  assert (Hd : n = -134774 + 146097 * q + r) by (subst q r d; zdiv).
  set (a := Z.min (r / 36524) 3).
  set (r1 := r - a * 36524).
  set (b := r1 / 1461). set (r2 := r1 mod 1461).
  set (c := Z.min (r2 / 365) 3).
  replace (1601 + 400 * q + 100 * a + 4 * b + c)
    with ((1601 + 100 * a + 4 * b + c) + 400 * q) by lia.
  rewrite DayFromYear_shift.
  assert (Ha : 0 <= a <= 3) by (subst a; zdiv).
  assert (Hr1 : 0 <= r1 < 36525 /\ (a < 3 -> r1 < 36524)) by (subst r1 a; zdiv).
  assert (Hb' : 0 <= b <= 24) by (subst b; zdiv).
  assert (Hr2 : 0 <= r2 < 1461 /\ r1 = 1461 * b + r2) by (subst r2 b; zdiv).
  assert (Hc : 0 <= c <= 3) by (subst c; zdiv).
  assert (Hc2 : 365 * c <= r2 /\ (c < 3 -> r2 < 365 * c + 365)) by (subst c; zdiv).
  assert (Hr1' : r = 36524 * a + r1) by (subst r1; lia).
  clearbody a b c r1 r2 q r. clear d.
  assert (HD : DayFromYear (1601 + 100 * a + 4 * b + c)
               = -134774 + 36524 * a + 1461 * b + 365 * c).
  { unfold DayFromYear. zdiv. }
  rewrite HD.
  assert (HL : DaysInYear (1601 + 100 * a + 4 * b + c + 400 * q)
               = if (c =? 3) && ((b <? 24) || (a =? 3)) then 366 else 365).
  { unfold DaysInYear.
    destruct (Z.eqb_spec ((1601 + 100 * a + 4 * b + c + 400 * q) mod 4) 0);
    destruct (Z.eqb_spec ((1601 + 100 * a + 4 * b + c + 400 * q) mod 100) 0);
    destruct (Z.eqb_spec ((1601 + 100 * a + 4 * b + c + 400 * q) mod 400) 0);
    destruct (Z.eqb_spec c 3); destruct (Z.ltb_spec b 24); destruct (Z.eqb_spec a 3);
    cbn [andb orb negb]; zdiv. }
  rewrite HL.
  destruct (Z.eqb_spec c 3); destruct (Z.ltb_spec b 24); destruct (Z.eqb_spec a 3);
    cbn [andb orb]; lia.
Qed.

Lemma DaysInYear_bounds y : 365 <= DaysInYear y <= 366.
Proof.
  unfold DaysInYear.
  repeat match goal with |- context [if ?c then _ else _] => destruct c end; lia.
Qed.

Lemma DayFromYear_lt y1 y2 : y1 < y2 -> DayFromYear y1 < DayFromYear y2.
Proof. unfold DayFromYear. zdiv. Qed.

(** ... and it is the only such year: the largest [y] with
    [DayFromYear y <= n], as the standard defines YearFromTime. *)
Lemma YearFromDay_unique n y :
  DayFromYear y <= n < DayFromYear (y + 1) -> YearFromDay n = y.
Proof.
  intros H. pose proof (YearFromDay_spec n) as S.
  destruct (Z.lt_trichotomy (YearFromDay n) y) as [L | [E | G]]; [| exact E |].
  - assert (DayFromYear (YearFromDay n + 1) <= DayFromYear y).
    { destruct (Z.eq_dec (YearFromDay n + 1) y) as [-> |]; [lia |].
      apply Z.lt_le_incl, DayFromYear_lt; lia. }
    lia.
  - assert (DayFromYear (y + 1) <= DayFromYear (YearFromDay n)).
    { destruct (Z.eq_dec (y + 1) (YearFromDay n)) as [-> |]; [lia |].
      apply Z.lt_le_incl, DayFromYear_lt; lia. }
    lia.
Qed.

Lemma YearFromDay_largest n y : DayFromYear y <= n -> y <= YearFromDay n.
Proof.
  intros H. pose proof (YearFromDay_spec n) as S.
  destruct (Z.le_gt_cases y (YearFromDay n)) as [L | G]; [exact L |].
  assert (DayFromYear (YearFromDay n + 1) <= DayFromYear y).
  { destruct (Z.eq_dec (YearFromDay n + 1) y) as [-> |]; [lia |].
    apply Z.lt_le_incl, DayFromYear_lt; lia. }
  lia.
Qed.

Lemma InLeapYear_cases y :
  (InLeapYear y = 0 /\ DaysInYear y = 365) \/ (InLeapYear y = 1 /\ DaysInYear y = 366).
Proof.
  unfold InLeapYear. pose proof (DaysInYear_bounds y).
  destruct (Z.eqb_spec (DaysInYear y) 366); lia.
Qed.

Lemma month_cases m : 0 <= m <= 11 ->
  m = 0 \/ m = 1 \/ m = 2 \/ m = 3 \/ m = 4 \/ m = 5 \/
  m = 6 \/ m = 7 \/ m = 8 \/ m = 9 \/ m = 10 \/ m = 11.
Proof. lia. Qed.

Ltac each_month H :=
  let C := fresh "C" in
  pose proof (month_cases _ H) as C;
  repeat (destruct C as [C | C]); subst.

Lemma MakeDay_in_range y m d : 0 <= m <= 11 ->
  MakeDay y m d = DayFromYear y + monthStart m (InLeapYear y) + d - 1.
Proof.
  intros Hm. unfold MakeDay.
  replace (m / 12) with 0 by zdiv. replace (m mod 12) with m by zdiv.
  now rewrite Z.add_0_r.
Qed.

(** The fields of [MakeDay y m d] are [y], [m] and [d] when [d] is a day of
    month [m]. *)
Lemma YearFromDay_MakeDay y m d :
  0 <= m <= 11 -> 1 <= d <= daysInMonthOf y m ->
  YearFromDay (MakeDay y m d) = y.
Proof.
  intros Hm Hd. apply YearFromDay_unique. rewrite DayFromYear_succ.
  rewrite MakeDay_in_range by assumption.
  unfold daysInMonthOf, monthLength in Hd.
  destruct (InLeapYear_cases y) as [[E1 E2] | [E1 E2]]; rewrite E1 in *; rewrite E2;
    each_month Hm; cbn [monthStart] in *; lia.
Qed.

Lemma MonthFromDay_MakeDay y m d :
  0 <= m <= 11 -> 1 <= d <= daysInMonthOf y m ->
  MonthFromDay (MakeDay y m d) = m.
Proof.
  intros Hm Hd. unfold MonthFromDay, DayWithinYear.
  rewrite YearFromDay_MakeDay by assumption.
  rewrite MakeDay_in_range by assumption.
  unfold daysInMonthOf, monthLength in Hd. unfold monthOfDayWithinYear.
  destruct (InLeapYear_cases y) as [[E1 E2] | [E1 E2]]; rewrite E1 in *;
    each_month Hm; cbn [monthStart] in *;
    repeat match goal with
           | |- context [?a <? ?b] => destruct (Z.ltb_spec a b); try lia
           end.
Qed.

Lemma DateFromDay_MakeDay y m d :
  0 <= m <= 11 -> 1 <= d <= daysInMonthOf y m ->
  DateFromDay (MakeDay y m d) = d.
Proof.
  intros Hm Hd. unfold DateFromDay.
  rewrite MonthFromDay_MakeDay by assumption.
  unfold DayWithinYear.
  rewrite YearFromDay_MakeDay by assumption.
  rewrite MakeDay_in_range by assumption. lia.
Qed.

Lemma monthStart_succ m leap : 0 <= m < 11 -> leap = 0 \/ leap = 1 ->
  monthStart (m + 1) leap = monthStart m leap + monthLength m leap.
Proof.
  intros Hm [-> | ->];
    (assert (Hm' : 0 <= m <= 11) by lia); each_month Hm'; try lia; reflexivity.
Qed.

Lemma monthStart_year_end leap : monthStart 11 leap + monthLength 11 leap = 365 + leap.
Proof.
  change (monthStart 11 leap) with (334 + leap).
  change (monthLength 11 leap) with 31. lia.
Qed.

(** Day 0 of the next month is the last day of this month. *)
Lemma MakeDay_day0_next y m : 0 <= m <= 11 ->
  MakeDay y (m + 1) 0 = MakeDay y m (daysInMonthOf y m).
Proof.
  intros Hm. rewrite (MakeDay_in_range y m) by assumption.
  unfold MakeDay, daysInMonthOf.
  destruct (Z.eq_dec m 11) as [-> | Hne].
  - change ((11 + 1) / 12) with 1. change ((11 + 1) mod 12) with 0.
    rewrite DayFromYear_succ.
    pose proof (monthStart_year_end (InLeapYear y)).
    change (monthStart 0 (InLeapYear (y + 1))) with 0.
    destruct (InLeapYear_cases y) as [[E1 E2] | [E1 E2]]; rewrite E1, E2 in *; lia.
  - replace ((m + 1) / 12) with 0 by zdiv.
    replace ((m + 1) mod 12) with (m + 1) by zdiv.
    replace (y + 0) with y by lia.
    rewrite monthStart_succ; [lia | lia |].
    destruct (InLeapYear_cases y) as [[E1 _] | [E1 _]]; rewrite E1; auto.
Qed.

Lemma daysInMonthOf_bounds y m : 28 <= daysInMonthOf y m <= 31.
Proof.
  unfold daysInMonthOf, monthLength.
  destruct (InLeapYear_cases y) as [[E _] | [E _]]; rewrite E;
    repeat match goal with |- context [match ?x with _ => _ end] => destruct x end; lia.
Qed.

Lemma MonthFromDay_range n : 0 <= MonthFromDay n <= 11.
Proof.
  unfold MonthFromDay, monthOfDayWithinYear.
  repeat match goal with |- context [if ?c then _ else _] => destruct c end; lia.
Qed.

Lemma WeekDay_range n : 0 <= WeekDay n <= 6.
Proof. unfold WeekDay. zdiv. Qed.


(** The date of a day is a day of its month. *)
Lemma DateFromDay_range n :
  1 <= DateFromDay n <= daysInMonthOf (YearFromDay n) (MonthFromDay n).
Proof.
  pose proof (YearFromDay_spec n) as S. rewrite DayFromYear_succ in S.
  unfold DateFromDay, daysInMonthOf, MonthFromDay, DayWithinYear, monthOfDayWithinYear.
  set (y := YearFromDay n) in *.
  destruct (InLeapYear_cases y) as [[E1 E2] | [E1 E2]]; rewrite E1; rewrite E2 in S;
    repeat match goal with
           | |- context [?a <? ?b] => destruct (Z.ltb_spec a b)
           end; cbn [monthStart monthLength]; lia.
Qed.

(* ================================================================== *)
(** ** The calendar grid ([generateCalendarDays]) *)

Lemma iterate_push {A : Type} (f : Z -> A) n : forall i (s : list A),
  iterate n i (fun j => push (f j)) s = s ++ map f (daysFrom i n).
Proof.
  induction n as [| n IH]; intros i s; cbn [iterate daysFrom map].
  - now rewrite app_nil_r.
  - rewrite IH. unfold push. now rewrite <- app_assoc.
Qed.

Lemma map_const_daysFrom {A : Type} (b : A) n : forall i,
  map (fun _ => b) (daysFrom i n) = repeat b n.
Proof. induction n as [| n IH]; intros i; cbn; [| rewrite IH]; reflexivity. Qed.

Lemma for_lt_push_const {A : Type} (b : A) k (s : list A) :
  for_lt 0 k (fun _ => push b) s = s ++ repeat b (Z.to_nat k).
Proof.
  unfold for_lt. rewrite (iterate_push (fun _ => b)), map_const_daysFrom.
  now rewrite Z.sub_0_r.
Qed.

Lemma for_le_push {A : Type} (f : Z -> A) k (s : list A) :
  for_le 1 k (fun j => push (f j)) s = s ++ map f (daysFrom 1 (Z.to_nat k)).
Proof.
  unfold for_le, for_lt. rewrite iterate_push.
  now replace (k + 1 - 1) with k by lia.
Qed.

Lemma daysFrom_length i n : List.length (daysFrom i n) = n.
Proof. revert i; induction n as [| n IH]; intros i; cbn; [| rewrite IH]; reflexivity. Qed.

Lemma daysFrom_In j n : forall i, In j (daysFrom i n) -> i <= j < i + Z.of_nat n.
Proof.
  induction n as [| n IH]; intros i; cbn [daysFrom In]; [tauto |].
  intros [<- | H]; [lia |]. apply IH in H. lia.
Qed.

(** [getDaysInMonth] is the length of the month of the year the [Date]
    constructor reads from [getFullYear()]. *)
Lemma getDaysInMonth_eq cur :
  getDaysInMonth cur = daysInMonthOf (MakeFullYear (getFullYear cur)) (getMonth cur).
Proof.
  unfold getDaysInMonth, new_Date, getDate. cbn [localDay].
  pose proof (MonthFromDay_range (localDay cur)) as Hm. fold (getMonth cur) in Hm.
  rewrite MakeDay_day0_next by exact Hm.
  apply DateFromDay_MakeDay; [exact Hm |].
  pose proof (daysInMonthOf_bounds (MakeFullYear (getFullYear cur)) (getMonth cur)). lia.
Qed.

Lemma formatDateISO_new_Date y m i :
  0 <= m <= 11 -> 1 <= i <= daysInMonthOf (MakeFullYear y) m ->
  formatDateISO (new_Date y m i) = isoDate (MakeFullYear y) (m + 1) i.
Proof.
  intros Hm Hi. unfold formatDateISO, new_Date, getFullYear, getMonth, getDate.
  cbn [localDay].
  now rewrite YearFromDay_MakeDay, MonthFromDay_MakeDay, DateFromDay_MakeDay.
Qed.

(** The grid [generateCalendarDays] builds is the grid of the month
    [getMonth()] of the year [MakeFullYear (getFullYear())]. *)
Lemma generateCalendarDays_grid cur :
  generateCalendarDays cur
  = calendarGrid (MakeFullYear (getFullYear cur)) (getMonth cur).
Proof.
  unfold generateCalendarDays, calendarGrid. cbv zeta.
  pose proof (MonthFromDay_range (localDay cur)) as Hm. fold (getMonth cur) in Hm.
  rewrite getDaysInMonth_eq.
  set (y := MakeFullYear (getFullYear cur)). set (m := getMonth cur) in *.
  assert (Hf : getFirstDayOfMonth cur = WeekDay (MakeDay y m 1)) by reflexivity.
  rewrite Hf. set (w := WeekDay (MakeDay y m 1)).
  pose proof (WeekDay_range (MakeDay y m 1)) as Hw. fold w in Hw.
  pose proof (daysInMonthOf_bounds y m) as Hn.
  rewrite for_lt_push_const. cbn [app].
  rewrite (for_le_push
             (fun i => mkCalendarDay (Some i)
                         (Some (formatDateISO (new_Date (getFullYear cur) m i))))).
  assert (Hmap :
    map (fun i => mkCalendarDay (Some i)
                    (Some (formatDateISO (new_Date (getFullYear cur) m i))))
        (daysFrom 1 (Z.to_nat (daysInMonthOf y m)))
    = map (daySlot y m) (daysFrom 1 (Z.to_nat (daysInMonthOf y m)))).
  { apply map_ext_in. intros i Hi. apply daysFrom_In in Hi.
    unfold daySlot. rewrite formatDateISO_new_Date; [reflexivity | exact Hm |].
    fold y. lia. }
  rewrite Hmap.
  rewrite length_app, repeat_length, length_map, daysFrom_length.
  replace (Z.of_nat (Z.to_nat w + Z.to_nat (daysInMonthOf y m)))
    with (w + daysInMonthOf y m) by lia.
  destruct (42 - (w + daysInMonthOf y m) <? 7).
  - rewrite for_lt_push_const, <- app_assoc. reflexivity.
  - rewrite app_nil_r. reflexivity.
Qed.

(** The grid has exactly 42 slots, or at most 35. *)
Lemma calendarGrid_length y m :
  List.length (calendarGrid y m) = 42%nat \/ (List.length (calendarGrid y m) <= 35)%nat.
Proof.
  unfold calendarGrid. cbv zeta.
  pose proof (WeekDay_range (MakeDay y m 1)) as Hw.
  pose proof (daysInMonthOf_bounds y m) as Hn.
  set (w := WeekDay (MakeDay y m 1)) in *. set (n := daysInMonthOf y m) in *.
  rewrite !length_app, repeat_length, length_map, daysFrom_length.
  destruct (Z.ltb_spec (42 - (w + n)) 7).
  - left. rewrite repeat_length. lia.
  - right. cbn [List.length]. lia.
Qed.


Lemma MakeFullYear_two_digits y : 0 <= y <= 99 -> MakeFullYear y = 1900 + y.
Proof.
  intros H. unfold MakeFullYear.
  destruct (Z.leb_spec 0 y); destruct (Z.leb_spec y 99); cbn [andb]; lia.
Qed.

(* ================================================================== *)
(** ** The ledger aggregator ([stats]) *)

Ltac acc_simpl :=
  cbn [Acc.investedCapital Acc.netProfit Acc.tradeCount Acc.grossProfit
       Acc.grossLoss Acc.winCount Acc.lossCount].

Lemma accumulate_app l1 l2 :
  accumulate (l1 ++ l2) = fold_left step l2 (accumulate l1).
Proof. unfold accumulate. apply fold_left_app. Qed.

(** The gross sums never leave the non-negative values: they start at [0],
    and only amounts above zero, or the absolute value of amounts below zero,
    are added to them. *)
Lemma step_gross_nonneg a t :
  nonneg (Acc.grossProfit a) = true -> nonneg (Acc.grossLoss a) = true ->
  nonneg (Acc.grossProfit (step a t)) = true /\
  nonneg (Acc.grossLoss (step a t)) = true.
Proof.
  intros Hp Hl. unfold step.
  destruct (type t); cbn [Acc.grossProfit Acc.grossLoss]; auto.
  destruct (gt (amount t) 0%float) eqn:Hgt; cbn [Acc.grossProfit Acc.grossLoss].
  - split; [apply nonneg_add; auto using gt_zero_nonneg | exact Hl].
  - destruct (lt (amount t) 0%float) eqn:Hlt; cbn [Acc.grossProfit Acc.grossLoss]; auto.
    split; [exact Hp | apply nonneg_add; auto using lt_zero_abs_nonneg].
Qed.

Lemma fold_gross_nonneg l : forall a,
  nonneg (Acc.grossProfit a) = true -> nonneg (Acc.grossLoss a) = true ->
  nonneg (Acc.grossProfit (fold_left step l a)) = true /\
  nonneg (Acc.grossLoss (fold_left step l a)) = true.
Proof.
  induction l as [| t l IH]; intros a Hp Hl; cbn [fold_left]; [auto |].
  destruct (step_gross_nonneg a t Hp Hl) as [Hp' Hl']. now apply IH.
Qed.

Lemma accumulate_gross_nonneg txs :
  nonneg (Acc.grossProfit (accumulate txs)) = true /\
  nonneg (Acc.grossLoss (accumulate txs)) = true.
Proof. unfold accumulate. apply fold_gross_nonneg; reflexivity. Qed.

(** C2. For every transaction list, [profitFactor] is [grossProfit /
    grossLoss] when [grossLoss > 0]; when [grossLoss] is zero it is
    [+Infinity] if [grossProfit > 0] and [0] if [grossProfit] is zero.  These
    cases are all the cases: neither gross sum is ever NaN or negative, so
    each is above zero or equal to zero. *)
Theorem profitFactor_cases (txs : list Transaction) :
  let a := accumulate txs in
  let pf := Stats.profitFactor (aggregate txs) in
  (gt (Acc.grossLoss a) 0%float = true ->
     pf = (Acc.grossProfit a / Acc.grossLoss a)%float) /\
  (strictEq (Acc.grossLoss a) 0%float = true ->
     gt (Acc.grossProfit a) 0%float = true -> pf = Infinity) /\
  (strictEq (Acc.grossLoss a) 0%float = true ->
     strictEq (Acc.grossProfit a) 0%float = true -> pf = 0%float) /\
  (gt (Acc.grossLoss a) 0%float = true \/ strictEq (Acc.grossLoss a) 0%float = true) /\
  (gt (Acc.grossProfit a) 0%float = true \/ strictEq (Acc.grossProfit a) 0%float = true).
Proof.
  cbv zeta. unfold aggregate, derive. cbn [Stats.profitFactor].
  destruct (accumulate_gross_nonneg txs) as [Hp Hl].
  repeat split.
  - intros ->. reflexivity.
  - intros Hz Hg. apply strictEq_zero_not_gt_lt in Hz as [-> _]. now rewrite Hg.
  - intros Hz Hz'. apply strictEq_zero_not_gt_lt in Hz as [-> _].
    apply strictEq_zero_not_gt_lt in Hz' as [-> _]. reflexivity.
  - now apply nonneg_cases.
  - now apply nonneg_cases.
Qed.

(** The three cases of C2 on concrete lists: gross profit 30 against gross
    loss 10, a single winning trade, and a single deposit. *)
Lemma profitFactor_cases_witness :
  Stats.profitFactor
    (aggregate [trade "a" "2024-01-02" SWING 30; trade "b" "2024-01-03" SWING (-10)])
  = 3%float /\
  Stats.profitFactor (aggregate [trade "a" "2024-01-02" SWING 30]) = Infinity /\
  Stats.profitFactor (aggregate [deposit "a" "2024-01-02" SWING 500]) = 0%float.
Proof.
  split; [| split].
  - destruct (profitFactor_cases
                [trade "a" "2024-01-02" SWING 30; trade "b" "2024-01-03" SWING (-10)])
      as [H _].
    rewrite H; reflexivity.
  - destruct (profitFactor_cases [trade "a" "2024-01-02" SWING 30]) as (_ & H & _).
    apply H; reflexivity.
  - destruct (profitFactor_cases [deposit "a" "2024-01-02" SWING 500]) as (_ & _ & H & _).
    apply H; reflexivity.
Defined.

(** What a [TRADE] of amount zero does to the loop state. *)
Lemma step_zero_trade a t :
  type t = TRADE -> strictEq (amount t) 0%float = true ->
  step a t = Acc.mk (Acc.investedCapital a) (Acc.netProfit a + amount t)%float
                    (Acc.tradeCount a + 1)%float (Acc.grossProfit a) (Acc.grossLoss a)
                    (Acc.winCount a) (Acc.lossCount a).
Proof.
  intros Ht Hz. unfold step. rewrite Ht.
  apply strictEq_zero_not_gt_lt in Hz as [-> ->]. reflexivity.
Qed.

(** The win and loss buckets after a run of steps depend only on the buckets
    before it. *)
Lemma fold_buckets_ext l : forall a b,
  Acc.winCount a = Acc.winCount b -> Acc.lossCount a = Acc.lossCount b ->
  Acc.grossProfit a = Acc.grossProfit b -> Acc.grossLoss a = Acc.grossLoss b ->
  Acc.winCount (fold_left step l a) = Acc.winCount (fold_left step l b) /\
  Acc.lossCount (fold_left step l a) = Acc.lossCount (fold_left step l b) /\
  Acc.grossProfit (fold_left step l a) = Acc.grossProfit (fold_left step l b) /\
  Acc.grossLoss (fold_left step l a) = Acc.grossLoss (fold_left step l b).
Proof.
  induction l as [| t l IH]; intros a b H1 H2 H3 H4; cbn [fold_left]; [auto |].
  apply IH; unfold step; destruct (type t); acc_simpl; auto;
    destruct (gt (amount t) 0%float); acc_simpl; try congruence;
    destruct (lt (amount t) 0%float); acc_simpl; congruence.
Qed.

(** One more trade counted before a run of steps is one more trade counted
    after it. *)
Lemma fold_tradeCount_succ l : forall a b,
  Acc.tradeCount b = (Acc.tradeCount a + 1)%float ->
  Acc.tradeCount (fold_left step l b) = (Acc.tradeCount (fold_left step l a) + 1)%float.
Proof.
  induction l as [| t l IH]; intros a b H; cbn [fold_left]; [exact H |].
  apply IH. unfold step. destruct (type t); acc_simpl; auto.
  destruct (gt (amount t) 0%float); acc_simpl; [now rewrite H |].
  destruct (lt (amount t) 0%float); acc_simpl; now rewrite H.
Qed.

(** C3. A [TRADE] whose amount is exactly zero (either zero) increments
    [tradeCount] and leaves [winCount], [lossCount], [grossProfit] and
    [grossLoss] unchanged: this holds for the loop step from any state, and
    for the totals of a list with and without that trade, wherever it stands
    in the list.  The list made of that single trade has [tradeCount = 1],
    [winCount = 0], [lossCount = 0] and [winRate = 0]. *)
Theorem zero_trade_counted_not_bucketed (t : Transaction) :
  type t = TRADE -> strictEq (amount t) 0%float = true ->
  (forall a,
     Acc.tradeCount (step a t) = (Acc.tradeCount a + 1)%float /\
     Acc.winCount (step a t) = Acc.winCount a /\
     Acc.lossCount (step a t) = Acc.lossCount a /\
     Acc.grossProfit (step a t) = Acc.grossProfit a /\
     Acc.grossLoss (step a t) = Acc.grossLoss a) /\
  (forall l1 l2,
     Acc.tradeCount (accumulate (l1 ++ t :: l2))
     = (Acc.tradeCount (accumulate (l1 ++ l2)) + 1)%float /\
     Acc.winCount (accumulate (l1 ++ t :: l2)) = Acc.winCount (accumulate (l1 ++ l2)) /\
     Acc.lossCount (accumulate (l1 ++ t :: l2)) = Acc.lossCount (accumulate (l1 ++ l2)) /\
     Acc.grossProfit (accumulate (l1 ++ t :: l2))
     = Acc.grossProfit (accumulate (l1 ++ l2)) /\
     Acc.grossLoss (accumulate (l1 ++ t :: l2)) = Acc.grossLoss (accumulate (l1 ++ l2))) /\
  Acc.tradeCount (accumulate [t]) = 1%float /\
  Acc.winCount (accumulate [t]) = 0%float /\
  Acc.lossCount (accumulate [t]) = 0%float /\
  Stats.tradeCount (aggregate [t]) = 1%float /\
  Stats.winRate (aggregate [t]) = 0%float.
Proof.
  intros Ht Hz.
  assert (Hstep : forall a, step a t = _) by (intros a; exact (step_zero_trade a t Ht Hz)).
  split; [| split].
  - intros a. rewrite Hstep. acc_simpl. auto.
  - intros l1 l2. rewrite !accumulate_app. cbn [fold_left].
    split.
    + apply fold_tradeCount_succ. rewrite Hstep. reflexivity.
    + apply fold_buckets_ext; rewrite Hstep; reflexivity.
  - unfold aggregate, accumulate. cbn [fold_left]. rewrite Hstep.
    repeat split; reflexivity.
Qed.

(** C3 on a zero trade between a winning and a losing trade. *)
Lemma zero_trade_counted_not_bucketed_witness :
  Acc.tradeCount
    (accumulate [trade "a" "2024-03-01" SWING 25; trade "z" "2024-03-02" SWING 0;
                 trade "b" "2024-03-04" SWING (-5)]) = 3%float /\
  Stats.winRate (aggregate [trade "z" "2024-03-02" SWING 0]) = 0%float.
Proof.
  destruct (zero_trade_counted_not_bucketed (trade "z" "2024-03-02" SWING 0)
              eq_refl eq_refl) as (_ & H & _ & _ & _ & _ & Hw).
  split; [| exact Hw].
  destruct (H [trade "a" "2024-03-01" SWING 25] [trade "b" "2024-03-04" SWING (-5)])
    as [Hc _].
  cbn [app] in Hc. rewrite Hc. reflexivity.
Defined.

(** C4. For every transaction list: [portfolioValue] is [investedCapital +
    netProfit]; [roi] is [(netProfit / investedCapital) * 100] when
    [investedCapital !== 0] and exactly [0] otherwise; [winRate], [avgWin] and
    [avgLoss] are exactly [0] when their divisor count is not above zero; and
    the empty list gives [0] for every metric. *)
Theorem derived_metrics (txs : list Transaction) :
  let a := accumulate txs in
  let s := aggregate txs in
  Stats.investedCapital s = Acc.investedCapital a /\
  Stats.netProfit s = Acc.netProfit a /\
  Stats.tradeCount s = Acc.tradeCount a /\
  Stats.portfolioValue s = (Stats.investedCapital s + Stats.netProfit s)%float /\
  Stats.roi s =
    (if strictNe (Stats.investedCapital s) 0%float
     then ((Stats.netProfit s / Stats.investedCapital s) * 100)%float
     else 0%float) /\
  (strictEq (Stats.investedCapital s) 0%float = true -> Stats.roi s = 0%float) /\
  (gt (Stats.tradeCount s) 0%float = false -> Stats.winRate s = 0%float) /\
  (gt (Acc.winCount a) 0%float = false -> Stats.avgWin s = 0%float) /\
  (gt (Acc.lossCount a) 0%float = false -> Stats.avgLoss s = 0%float) /\
  aggregate [] =
    Stats.mk 0%float 0%float 0%float 0%float 0%float 0%float 0%float 0%float 0%float.
Proof.
  cbv zeta. unfold aggregate, derive. cbn [Stats.investedCapital Stats.netProfit
    Stats.tradeCount Stats.portfolioValue Stats.roi Stats.winRate Stats.avgWin
    Stats.avgLoss].
  repeat split.
  - unfold strictNe, strictEq. now intros ->.
  - now intros ->.
  - now intros ->.
  - now intros ->.
Qed.

(** C4 on a list without deposits, where [investedCapital] is zero, and on
    the empty list. *)
Lemma derived_metrics_witness :
  Stats.roi (aggregate [trade "a" "2024-03-01" SWING 25]) = 0%float /\
  Stats.winRate (aggregate [deposit "d" "2024-03-01" SWING 100]) = 0%float /\
  Stats.roi (aggregate []) = 0%float.
Proof.
  split; [| split].
  - destruct (derived_metrics [trade "a" "2024-03-01" SWING 25])
      as (_ & _ & _ & _ & _ & H & _).
    apply H. reflexivity.
  - destruct (derived_metrics [deposit "d" "2024-03-01" SWING 100])
      as (_ & _ & _ & _ & _ & _ & H & _).
    apply H. reflexivity.
  - destruct (derived_metrics []) as (_ & _ & _ & _ & _ & _ & _ & _ & _ & H).
    rewrite H. reflexivity.
Defined.

(* ================================================================== *)
(** ** Order of the transactions: the sort of the view and the sums *)

Section SortFacts.
Context {A : Type}.
Variable compareFn : A -> A -> option Z.

Lemma insertSorted_Permutation x l :
  Permutation (insertSorted compareFn x l) (x :: l).
Proof.
  induction l as [| y l IH]; cbn [insertSorted]; [reflexivity |].
  destruct (comesAfter compareFn x y); [| reflexivity].
  rewrite IH. apply perm_swap.
Qed.

(** [sort] keeps the elements: it only reorders them. *)
Lemma Array_sort_Permutation l : Permutation (Array_sort compareFn l) l.
Proof.
  induction l as [| x l IH]; cbn [Array_sort fold_right]; [reflexivity |].
  fold (Array_sort compareFn l).
  rewrite insertSorted_Permutation. now apply perm_skip.
Qed.

(** [sort] is stable: elements that the comparator does not order keep their
    relative order.  For a test [p] whose elements are pairwise unordered,
    filtering after the sort is filtering before it. *)
Lemma filter_insertSorted (p : A -> bool) x l :
  (forall y, In y l -> p x = true -> p y = true -> comesAfter compareFn x y = false) ->
  filter p (insertSorted compareFn x l) = filter p (x :: l).
Proof.
  induction l as [| y l IH]; intros H; cbn [insertSorted]; [reflexivity |].
  destruct (comesAfter compareFn x y) eqn:E; [| reflexivity].
  cbn [filter]. rewrite IH by (intros z Hz; apply H; now right). cbn [filter].
  destruct (p x) eqn:Px; [| reflexivity].
  destruct (p y) eqn:Py; [| reflexivity].
  rewrite (H y (or_introl eq_refl) eq_refl Py) in E. discriminate E.
Qed.

Lemma filter_Array_sort (p : A -> bool) l :
  (forall x y, p x = true -> p y = true -> comesAfter compareFn x y = false) ->
  filter p (Array_sort compareFn l) = filter p l.
Proof.
  intros H. induction l as [| x l IH]; cbn [Array_sort fold_right]; [reflexivity |].
  fold (Array_sort compareFn l).
  rewrite filter_insertSorted by (intros; now apply H).
  cbn [filter]. now rewrite IH.
Qed.
End SortFacts.

(** On transactions whose dates all parse, the view is in descending date
    order. *)
Lemma insertSorted_newestFirst x l :
  timeOf x <> None -> Forall (fun t => timeOf t <> None) l ->
  StronglySorted newestFirst l ->
  StronglySorted newestFirst (insertSorted byDateDescending x l).
Proof.
  intros Hx Hl Hs. induction Hs as [| y l Hs IH Hy]; cbn [insertSorted].
  - constructor; constructor.
  - apply Forall_cons_iff in Hl as [Hty Hl].
    unfold comesAfter, byDateDescending. fold (timeOf y) (timeOf x).
    destruct (timeOf x) as [tx |] eqn:Ex; [| congruence].
    destruct (timeOf y) as [ty |] eqn:Ey; [| congruence].
    destruct (Z.ltb_spec 0 (ty - tx)) as [Hlt | Hge].
    + constructor; [now apply IH |].
      apply (Permutation_Forall (Permutation_sym (insertSorted_Permutation _ x l))).
      constructor; [| exact Hy].
      unfold newestFirst. rewrite Ex, Ey. lia.
    + constructor; [now constructor |].
      constructor; [unfold newestFirst; rewrite Ex, Ey; lia |].
      revert Hy. apply Forall_impl. intros z. unfold newestFirst. rewrite Ex, Ey.
      destruct (timeOf z); [lia | tauto].
Qed.

Lemma filteredView_newestFirst l :
  Forall (fun t => timeOf t <> None) l ->
  StronglySorted newestFirst (Array_sort byDateDescending l).
Proof.
  induction 1 as [| x l Hx Hl IH]; cbn [Array_sort fold_right]; [constructor |].
  fold (Array_sort byDateDescending l).
  apply insertSorted_newestFirst; [exact Hx | | exact IH].
  revert Hl. apply Permutation_Forall, Permutation_sym, Array_sort_Permutation.
Qed.

(** Transactions of one date are not ordered by the comparator, so the sort
    keeps the stored order within a day. *)
Lemma same_date_unordered key x y :
  String.eqb (date x) key = true -> String.eqb (date y) key = true ->
  comesAfter byDateDescending x y = false.
Proof.
  intros Hx Hy. apply String.eqb_eq in Hx, Hy.
  unfold comesAfter, byDateDescending. rewrite Hx, Hy.
  destruct (Date_parse key); [| reflexivity].
  rewrite Z.sub_diag. reflexivity.
Qed.

Lemma filter_date_sorted key l :
  filter (fun t => String.eqb (date t) key) (Array_sort byDateDescending l)
  = filter (fun t => String.eqb (date t) key) l.
Proof. apply filter_Array_sort. intros x y. apply same_date_unordered. Qed.

(** The three counters after a run of steps depend only on the counters
    before it, and two steps may be exchanged. *)
Lemma step_counts_ext a b t :
  Acc.tradeCount a = Acc.tradeCount b -> Acc.winCount a = Acc.winCount b ->
  Acc.lossCount a = Acc.lossCount b ->
  Acc.tradeCount (step a t) = Acc.tradeCount (step b t) /\
  Acc.winCount (step a t) = Acc.winCount (step b t) /\
  Acc.lossCount (step a t) = Acc.lossCount (step b t).
Proof.
  intros H1 H2 H3. unfold step. destruct (type t); acc_simpl; auto.
  destruct (gt (amount t) 0%float); acc_simpl; [rewrite H1, H2; auto |].
  destruct (lt (amount t) 0%float); acc_simpl; rewrite H1, ?H3; auto.
Qed.

Lemma step_counts_swap a t u :
  Acc.tradeCount (step (step a t) u) = Acc.tradeCount (step (step a u) t) /\
  Acc.winCount (step (step a t) u) = Acc.winCount (step (step a u) t) /\
  Acc.lossCount (step (step a t) u) = Acc.lossCount (step (step a u) t).
Proof.
  unfold step.
  destruct (type t), (type u); acc_simpl; auto;
    destruct (gt (amount t) 0%float), (gt (amount u) 0%float); acc_simpl; auto;
    destruct (lt (amount t) 0%float), (lt (amount u) 0%float); acc_simpl; auto.
Qed.

Lemma fold_counts_ext l : forall a b,
  Acc.tradeCount a = Acc.tradeCount b -> Acc.winCount a = Acc.winCount b ->
  Acc.lossCount a = Acc.lossCount b ->
  Acc.tradeCount (fold_left step l a) = Acc.tradeCount (fold_left step l b) /\
  Acc.winCount (fold_left step l a) = Acc.winCount (fold_left step l b) /\
  Acc.lossCount (fold_left step l a) = Acc.lossCount (fold_left step l b).
Proof.
  induction l as [| t l IH]; intros a b H1 H2 H3; cbn [fold_left]; [auto |].
  destruct (step_counts_ext a b t H1 H2 H3) as (? & ? & ?). now apply IH.
Qed.

(** The counters do not depend on the order of the list. *)
Lemma fold_counts_Permutation l l' :
  Permutation l l' -> forall a b,
  Acc.tradeCount a = Acc.tradeCount b -> Acc.winCount a = Acc.winCount b ->
  Acc.lossCount a = Acc.lossCount b ->
  Acc.tradeCount (fold_left step l a) = Acc.tradeCount (fold_left step l' b) /\
  Acc.winCount (fold_left step l a) = Acc.winCount (fold_left step l' b) /\
  Acc.lossCount (fold_left step l a) = Acc.lossCount (fold_left step l' b).
Proof.
  induction 1 as [| x l l' _ IH | x y l | l l' l'' _ IH1 _ IH2];
    intros a b H1 H2 H3; cbn [fold_left].
  - auto.
  - destruct (step_counts_ext a b x H1 H2 H3) as (? & ? & ?). now apply IH.
  - destruct (step_counts_ext a b y H1 H2 H3) as (E1 & E2 & E3).
    destruct (step_counts_ext _ _ x E1 E2 E3) as (F1 & F2 & F3).
    destruct (step_counts_swap b y x) as (G1 & G2 & G3).
    apply fold_counts_ext; congruence.
  - destruct (IH1 a a eq_refl eq_refl eq_refl) as (E1 & E2 & E3).
    destruct (IH2 a b H1 H2 H3) as (F1 & F2 & F3).
    repeat split; congruence.
Qed.

Lemma accumulate_counts_Permutation l l' :
  Permutation l l' ->
  Acc.tradeCount (accumulate l) = Acc.tradeCount (accumulate l') /\
  Acc.winCount (accumulate l) = Acc.winCount (accumulate l') /\
  Acc.lossCount (accumulate l) = Acc.lossCount (accumulate l').
Proof. intros H. unfold accumulate. now apply fold_counts_Permutation. Qed.

Lemma aggregate_counts_Permutation l l' :
  Permutation l l' ->
  Stats.tradeCount (aggregate l) = Stats.tradeCount (aggregate l') /\
  Stats.winRate (aggregate l) = Stats.winRate (aggregate l').
Proof.
  intros H. destruct (accumulate_counts_Permutation l l' H) as (E1 & E2 & _).
  unfold aggregate, derive. cbn [Stats.tradeCount Stats.winRate].
  now rewrite E1, E2.
Qed.

(** Transfers touch [investedCapital] only, trades everything else: a run of
    steps is two independent runs, one over the transfers and one over the
    trades, each in the order of the list. *)
Lemma step_merge a b t :
  step (mergeAcc a b) t
  = if isTrade t then mergeAcc a (step b t) else mergeAcc (step a t) b.
Proof.
  unfold isTrade, step, mergeAcc.
  destruct (type t); cbn [TransactionType_eqb]; acc_simpl; try reflexivity.
  destruct (gt (amount t) 0%float); [reflexivity |].
  destruct (lt (amount t) 0%float); reflexivity.
Qed.

Lemma fold_step_merge l : forall a b,
  fold_left step l (mergeAcc a b)
  = mergeAcc (fold_left step (filter isTransfer l) a)
             (fold_left step (filter isTrade l) b).
Proof.
  induction l as [| t l IH]; intros a b; cbn [fold_left filter]; [reflexivity |].
  rewrite step_merge. unfold isTransfer.
  destruct (isTrade t); cbn [negb fold_left]; apply IH.
Qed.

Lemma accumulate_merge l :
  accumulate l
  = mergeAcc (accumulate (filter isTransfer l)) (accumulate (filter isTrade l)).
Proof. unfold accumulate. now rewrite <- fold_step_merge. Qed.

(** C10, as stated, fails: the sums are binary64 sums taken in list order.
    [swingLedger] and its reverse are permutations of each other, the
    date-descending sort turns the first into the second, and every metric
    but [winRate] and [tradeCount] differs between them. *)
Lemma aggregate_order_counterexample :
  Permutation swingLedger (rev swingLedger) /\
  Array_sort byDateDescending swingLedger = rev swingLedger /\
  Stats.investedCapital (aggregate swingLedger)
    <> Stats.investedCapital (aggregate (rev swingLedger)) /\
  Stats.netProfit (aggregate swingLedger)
    <> Stats.netProfit (aggregate (rev swingLedger)) /\
  Stats.portfolioValue (aggregate swingLedger)
    <> Stats.portfolioValue (aggregate (rev swingLedger)) /\
  Stats.roi (aggregate swingLedger) <> Stats.roi (aggregate (rev swingLedger)) /\
  Stats.avgWin (aggregate swingLedger) <> Stats.avgWin (aggregate (rev swingLedger)) /\
  Stats.avgLoss (aggregate swingLedger) <> Stats.avgLoss (aggregate (rev swingLedger)) /\
  Stats.profitFactor (aggregate swingLedger)
    <> Stats.profitFactor (aggregate (rev swingLedger)).
Proof.
  split; [apply Permutation_rev |].
  split; [vm_compute; reflexivity |].
  repeat split; vm_compute; intros H; discriminate H.
Qed.

(** C10, amended. For every transaction list and every permutation of it,
    aggregation yields the same [tradeCount] and [winRate] (and the same win
    and loss counts); in particular the date-descending sort of the view
    leaves them unchanged.  All nine metrics are the same for two lists that
    hold the same trades in the same order and the same transfers in the
    same order, however the two are interleaved. *)
Theorem aggregate_order (txs txs' : list Transaction) :
  Permutation txs txs' ->
  Stats.tradeCount (aggregate txs) = Stats.tradeCount (aggregate txs') /\
  Stats.winRate (aggregate txs) = Stats.winRate (aggregate txs') /\
  Acc.winCount (accumulate txs) = Acc.winCount (accumulate txs') /\
  Acc.lossCount (accumulate txs) = Acc.lossCount (accumulate txs') /\
  Stats.tradeCount (aggregate (Array_sort byDateDescending txs))
    = Stats.tradeCount (aggregate txs) /\
  Stats.winRate (aggregate (Array_sort byDateDescending txs))
    = Stats.winRate (aggregate txs) /\
  (filter isTrade txs = filter isTrade txs' ->
   filter isTransfer txs = filter isTransfer txs' ->
   aggregate txs = aggregate txs').
Proof.
  intros H.
  destruct (aggregate_counts_Permutation txs txs' H) as [E1 E2].
  destruct (accumulate_counts_Permutation txs txs' H) as (_ & E3 & E4).
  destruct (aggregate_counts_Permutation _ _ (Array_sort_Permutation byDateDescending txs))
    as [E5 E6].
  repeat split; auto.
  intros F1 F2. unfold aggregate.
  now rewrite (accumulate_merge txs), (accumulate_merge txs'), F1, F2.
Qed.

(** C10, amended, on [swingLedger] and its reverse. *)
Lemma aggregate_order_witness :
  Stats.tradeCount (aggregate swingLedger) = Stats.tradeCount (aggregate (rev swingLedger)) /\
  Stats.winRate (aggregate swingLedger) = Stats.winRate (aggregate (rev swingLedger)).
Proof.
  destruct (aggregate_order swingLedger (rev swingLedger) (Permutation_rev swingLedger))
    as (H1 & H2 & _).
  exact (conj H1 H2).
Defined.



(* ================================================================== *)
(** ** The per-day lookup ([getDayStats]) *)

Lemma filter_filter_andb {A : Type} (p q : A -> bool) l :
  filter p (filter q l) = filter (fun x => p x && q x) l.
Proof.
  induction l as [| x l IH]; cbn [filter]; [reflexivity |].
  destruct (q x) eqn:Hq; cbn [filter]; rewrite ?Hq, ?andb_true_r, ?andb_false_r.
  - destruct (p x); now rewrite IH.
  - exact IH.
Qed.

Lemma isTrade_iff t : isTrade t = true <-> type t = TRADE.
Proof. unfold isTrade. destruct (type t); cbn; split; congruence. Qed.

Lemma hasTrades_iff txs key :
  DayStats.hasTrades (getDayStats txs key) = true
  <-> exists t, In t txs /\ type t = TRADE /\ date t = key.
Proof.
  unfold getDayStats. cbn [DayStats.hasTrades]. rewrite existsb_exists.
  split.
  - intros (t & Hin & Ht). apply filter_In in Hin as [Hin Hd].
    exists t. repeat split; [exact Hin | now apply isTrade_iff | now apply String.eqb_eq].
  - intros (t & Hin & Ht & Hd). exists t. split.
    + apply filter_In. split; [exact Hin | now apply String.eqb_eq].
    + now apply isTrade_iff.
Qed.

Lemma hasTrades_withAmount f txs key :
  DayStats.hasTrades (getDayStats (map (withAmount f) txs) key)
  = DayStats.hasTrades (getDayStats txs key).
Proof.
  unfold getDayStats. cbn [DayStats.hasTrades].
  induction txs as [| t l IH]; cbn [map filter]; [reflexivity |].
  change (date (withAmount f t)) with (date t).
  destruct (String.eqb (date t) key); cbn [existsb]; [| exact IH].
  now rewrite IH.
Qed.

(** C5. For every date key and transaction list, [getDayStats] returns as
    [pl] the sum of the amounts of the [TRADE] transactions dated with the
    key, [isProfit = (pl > 0)], [isLoss = (pl < 0)], and [hasTrades] true
    exactly when the list holds a [TRADE] with that date, whatever the
    amounts are; a day with trades whose [pl] is zero has [hasTrades] true
    and [isProfit] and [isLoss] false. *)
Theorem getDayStats_spec (txs : list Transaction) (key : string) :
  let ds := getDayStats txs key in
  DayStats.date ds = key /\
  DayStats.transactions ds = filter (fun t => String.eqb (date t) key) txs /\
  DayStats.pl ds = sumAmounts (tradesOn key txs) /\
  DayStats.isProfit ds = gt (DayStats.pl ds) 0%float /\
  DayStats.isLoss ds = lt (DayStats.pl ds) 0%float /\
  (DayStats.hasTrades ds = true
   <-> exists t, In t txs /\ type t = TRADE /\ date t = key) /\
  (forall f, DayStats.hasTrades (getDayStats (map (withAmount f) txs) key)
             = DayStats.hasTrades ds) /\
  ((exists t, In t txs /\ type t = TRADE /\ date t = key) ->
   strictEq (DayStats.pl ds) 0%float = true ->
   DayStats.hasTrades ds = true /\ DayStats.isProfit ds = false /\
   DayStats.isLoss ds = false).
Proof.
  cbv zeta.
  split; [reflexivity |]. split; [reflexivity |].
  split. { unfold getDayStats, sumAmounts, tradesOn. cbn [DayStats.pl].
           now rewrite filter_filter_andb. }
  split; [reflexivity |]. split; [reflexivity |].
  split; [apply hasTrades_iff |].
  split; [intros f; apply hasTrades_withAmount |].
  intros Hex Hz. split; [now apply hasTrades_iff |].
  change (DayStats.isProfit (getDayStats txs key))
    with (gt (DayStats.pl (getDayStats txs key)) 0%float).
  change (DayStats.isLoss (getDayStats txs key))
    with (lt (DayStats.pl (getDayStats txs key)) 0%float).
  now apply strictEq_zero_not_gt_lt.
Qed.

(** C5 on a day with a winning and a losing trade of the same size. *)
Lemma getDayStats_spec_witness :
  DayStats.hasTrades
    (getDayStats [trade "a" "2024-05-06" SWING 40; trade "b" "2024-05-06" OPTIONS (-40);
                  deposit "c" "2024-05-07" SWING 10] "2024-05-06") = true /\
  DayStats.isProfit
    (getDayStats [trade "a" "2024-05-06" SWING 40; trade "b" "2024-05-06" OPTIONS (-40);
                  deposit "c" "2024-05-07" SWING 10] "2024-05-06") = false /\
  DayStats.isLoss
    (getDayStats [trade "a" "2024-05-06" SWING 40; trade "b" "2024-05-06" OPTIONS (-40);
                  deposit "c" "2024-05-07" SWING 10] "2024-05-06") = false.
Proof.
  destruct (getDayStats_spec
              [trade "a" "2024-05-06" SWING 40; trade "b" "2024-05-06" OPTIONS (-40);
               deposit "c" "2024-05-07" SWING 10] "2024-05-06")
    as (_ & _ & _ & _ & _ & _ & _ & H).
  apply H; [| reflexivity].
  exists (trade "a" "2024-05-06" SWING 40). cbn. auto.
Defined.

(** In [App] the list is the filtered view; its sort does not change any
    field of the per-day statistics. *)
Lemma getDayStats_view txs view key :
  getDayStats (filteredTransactions txs view) key
  = getDayStats (match view with
                 | OVERVIEW => txs
                 | View _ => filter (strategyIsView view) txs
                 end) key.
Proof.
  unfold filteredTransactions, getDayStats. now rewrite filter_date_sorted.
Qed.

(* ================================================================== *)
(** ** Delete by id *)

(** C8. For every transaction list and every id that does not occur in it,
    delete-by-id returns the list itself: same length, same contents. *)
Theorem deleteTransaction_absent_id (safeId : string) (prev : list Transaction) :
  (forall t, In t prev -> id t <> safeId) ->
  deleteTransaction safeId prev = prev /\
  List.length (deleteTransaction safeId prev) = List.length prev.
Proof.
  intros H.
  assert (E : deleteTransaction safeId prev = prev).
  { unfold deleteTransaction.
    induction prev as [| t l IH]; cbn [filter]; [reflexivity |].
    assert (Hne : String.eqb (id t) safeId = false)
      by (apply String.eqb_neq, H; now left).
    rewrite Hne. cbn [negb]. f_equal. apply IH. intros u Hu. apply H. now right. }
  split; [exact E | now rewrite E].
Qed.

(** C8 on [ledger] and an id it does not hold. *)
Lemma deleteTransaction_absent_id_witness :
  deleteTransaction "w9" ledger = ledger /\
  List.length (deleteTransaction "w9" ledger) = List.length ledger.
Proof.
  apply deleteTransaction_absent_id.
  intros t Hin. cbn in Hin.
  repeat (destruct Hin as [<- | Hin]; [cbn; discriminate |]).
  destruct Hin.
Defined.

(** Deleting an id that occurs removes every transaction with that id and
    nothing else. *)
Lemma deleteTransaction_In safeId prev t :
  In t (deleteTransaction safeId prev) <-> In t prev /\ id t <> safeId.
Proof.
  unfold deleteTransaction. rewrite filter_In, negb_true_iff, String.eqb_neq. tauto.
Qed.

(** Deleting twice is deleting once. *)
Lemma deleteTransaction_idempotent safeId prev :
  deleteTransaction safeId (deleteTransaction safeId prev)
  = deleteTransaction safeId prev.
Proof.
  unfold deleteTransaction. induction prev as [| t l IH]; cbn [filter]; [reflexivity |].
  destruct (negb (String.eqb (id t) safeId)) eqn:E; cbn [filter]; [| exact IH].
  rewrite E. now f_equal.
Qed.

(* ================================================================== *)
(** ** The form of the modal ([handleSubmit]) *)

Lemma numberInputValue_invalid typed :
  validFloatingPointNumber typed = false -> numberInputValue typed = EmptyString.
Proof. unfold numberInputValue. now intros ->. Qed.

(** The only test [handleSubmit] makes is whether the amount state is the
    empty string. *)
Lemma handleSubmit_empty parseFloat selectedDate f :
  Form.amount f = EmptyString -> handleSubmit parseFloat selectedDate f = (f, None).
Proof. unfold handleSubmit. now intros ->. Qed.

Lemma handleSubmit_nonempty parseFloat selectedDate f :
  Form.amount f <> EmptyString ->
  handleSubmit parseFloat selectedDate f
  = (Form.mk (Form.type f) (Form.strategy f) EmptyString EmptyString,
     Some (TxData.mk selectedDate (Form.type f) (Form.strategy f)
             (parseFloat (Form.amount f)) (Form.note f))).
Proof. unfold handleSubmit. destruct (Form.amount f); [congruence | reflexivity]. Qed.

(** C7. When the text of the amount field is not a number, submitting the
    form saves nothing: [handleSubmit] returns before [onSave], no transaction
    is created, and the transaction list and the form state are unchanged.
    The field is a number input, whose value reads as the empty string for
    such a text, and the empty amount is exactly what [handleSubmit] rejects
    (last part of the statement). *)
Theorem submit_non_numeric_amount
    (parseFloat : string -> number) (newId selectedDate typed : string)
    (f : Form.t) (transactions : list Transaction) :
  validFloatingPointNumber typed = false ->
  handleSubmit parseFloat selectedDate (amountOnChange typed f)
    = (amountOnChange typed f, None) /\
  submitForm parseFloat newId selectedDate (amountOnChange typed f) transactions
    = (amountOnChange typed f, transactions) /\
  (forall g, snd (handleSubmit parseFloat selectedDate g) = None
             <-> Form.amount g = EmptyString).
Proof.
  intros H.
  assert (E : handleSubmit parseFloat selectedDate (amountOnChange typed f)
              = (amountOnChange typed f, None)).
  { apply handleSubmit_empty. cbn [amountOnChange Form.amount].
    now apply numberInputValue_invalid. }
  split; [exact E |]. split; [unfold submitForm; now rewrite E |].
  intros g. split.
  - intros Hn. destruct (Form.amount g) eqn:Eg; [reflexivity |].
    rewrite handleSubmit_nonempty in Hn by (rewrite Eg; discriminate).
    discriminate Hn.
  - intros Eg. now rewrite handleSubmit_empty.
Qed.

(** C7 on the text [abc] typed into an empty trade form. *)
Lemma submit_non_numeric_amount_witness :
  submitForm (fun _ => PrimFloat.nan) "id-1" "2024-05-06"
    (amountOnChange "abc" (Form.mk TRADE DAY_TRADE "" "note")) ledger
  = (Form.mk TRADE DAY_TRADE "" "note", ledger).
Proof.
  exact (proj1 (proj2 (submit_non_numeric_amount (fun _ => PrimFloat.nan) "id-1"
                         "2024-05-06" "abc" (Form.mk TRADE DAY_TRADE "" "note") ledger
                         eq_refl))).
Defined.

(** A number typed into the field is saved as one new transaction at the end
    of the list. *)
Lemma submit_numeric_amount parseFloat newId selectedDate typed f transactions :
  validFloatingPointNumber typed = true ->
  snd (submitForm parseFloat newId selectedDate (amountOnChange typed f) transactions)
  = transactions ++ [mkTransaction newId selectedDate (Form.type f) (Form.strategy f)
                       (parseFloat typed) (Some (Form.note f))].
Proof.
  intros H. unfold submitForm.
  assert (Hv : numberInputValue typed = typed) by (unfold numberInputValue; now rewrite H).
  assert (Hne : typed <> EmptyString) by (intros ->; discriminate H).
  rewrite handleSubmit_nonempty; cbn [amountOnChange Form.amount Form.type
    Form.strategy Form.note]; rewrite Hv; [reflexivity | exact Hne].
Qed.

(* ================================================================== *)
(** ** [formatPercentage] *)

Lemma isFinite_not_isNaN v : isFinite v = true -> isNaN v = false.
Proof.
  unfold isFinite, isNaN, PrimFloat.is_finite.
  destruct (PrimFloat.is_nan v); [discriminate | reflexivity].
Qed.

(** C9. [formatPercentage] returns ["0.00%"] for every input that is not
    finite, that is for NaN, [+Infinity] and [-Infinity]; for every finite
    input it returns what the [en-US] percent formatter with exactly two
    fraction digits gives for the input divided by 100. *)
Theorem formatPercentage_spec
    (NumberFormat_en_US : NumberFormatOptions -> number -> string) (value : number) :
  (isFinite value = false -> formatPercentage NumberFormat_en_US value = "0.00%"%string) /\
  (isFinite value = true ->
   formatPercentage NumberFormat_en_US value
   = NumberFormat_en_US (mkOptions style_percent 2 2) (value / 100)%float) /\
  (isFinite value = false <->
   value = PrimFloat.nan \/ value = PrimFloat.infinity \/ value = PrimFloat.neg_infinity) /\
  formatPercentage NumberFormat_en_US PrimFloat.nan = "0.00%"%string /\
  formatPercentage NumberFormat_en_US PrimFloat.infinity = "0.00%"%string /\
  formatPercentage NumberFormat_en_US PrimFloat.neg_infinity = "0.00%"%string.
Proof.
  repeat split; try reflexivity.
  - unfold formatPercentage. now intros ->.
  - intros H. unfold formatPercentage. now rewrite H, (isFinite_not_isNaN value H).
  - apply not_isFinite_inv.
  - intros [-> | [-> | ->]]; reflexivity.
Qed.

(* ================================================================== *)
(** ** The calendar projection on reference dates *)




(** For every reference date the grid has 42 slots or at most 35. *)
Lemma generateCalendarDays_length cur :
  List.length (generateCalendarDays cur) = 42%nat \/
  (List.length (generateCalendarDays cur) <= 35)%nat.
Proof. rewrite generateCalendarDays_grid. apply calendarGrid_length. Qed.

(** C1 at the reference date 1 December 0099, the date [handlePrevMonth]
    reaches from January 0100.  The grid is the one of December 1999: three
    leading blanks and the keys 1999-12-01 ..., while 1 December 0099 is a
    Tuesday (index 2) and its key is 0099-12-01. *)
Theorem generateCalendarDays_december_0099 :
  handlePrevMonth (new_Date 100 0 1) = december_0099 /\
  getFullYear december_0099 = 99 /\ getMonth december_0099 = 11 /\
  getDate december_0099 = 1 /\
  getDay december_0099 = 2 /\
  formatDateISO december_0099 = "0099-12-01"%string /\
  generateCalendarDays december_0099 = calendarGrid 1999 11 /\
  firstn 4 (generateCalendarDays december_0099)
    = [blankSlot; blankSlot; blankSlot;
       mkCalendarDay (Some 1) (Some "1999-12-01"%string)] /\
  firstn 3 (calendarGrid 99 11)
    = [blankSlot; blankSlot; mkCalendarDay (Some 1) (Some "0099-12-01"%string)] /\
  generateCalendarDays december_0099 <> calendarGrid 99 11.
Proof.
  repeat split; try (vm_compute; reflexivity).
  intros H. apply (f_equal (firstn 3)) in H. vm_compute in H. discriminate H.
Qed.
